(** * ESLint bundle for TextMate: [Support/main.py]

    A shallow embedding of the bundle's entry script.  The script is glue
    code: it reads [os.environ] and [sys.argv], calls the linter wrapper
    ([validator.Validator]), renders templates ([ashes]), prints to the
    standard output and launches the editor helper ([subprocess.call]).

    - [os.environ] is a finite map from names to strings;
    - a template context (a Python dict) is a finite map from keys to
      tagged values;
    - every externally visible action is an [Event]; a run is the list of
      its events, in the order they happen, with the way the run ended
      ([Return], [Raise] of an uncaught exception, or [SysExit]);
    - the collaborators whose code is not part of the script (the linter
      wrapper, the template engine, the clock, the builtin [int]) are the
      fields of a [World]. *)

From stdpp Require Import gmap strings list pretty.
From Stdlib Require Import ZArith Ascii.

(** ** Data model *)

(** One linter finding, a dict with the keys the script reads.  The key
    ['shortname'] may be missing, the others are always there. *)
Record Issue := mkIssue {
  line : Z;
  character : Z;
  reason : string;
  shortname : option string;
  isError : bool;
  isWarning : bool
}.

(** The exceptions that can leave a function of the script. *)
Inductive Exn :=
  | KeyError (key : string)
  | ValueError (text : string)
  | ValidateError (message : string) (path : option string)
  | OtherError (name : string).

(** Values stored in a template context. *)
Inductive CtxVal :=
  | VStr (s : string)
  | VBool (b : bool)
  | VIssues (l : list Issue).

(** What [the_validator.run] hands back: the issue list, or an exception. *)
Inductive RunResult :=
  | RunIssues (issues : list Issue)
  | RunRaises (e : Exn).

(** The collaborators of the script. *)
Record World := mkWorld {
  (* validator.Validator(cmd).run(filename, input_is_html, line_offset, cwd) *)
  validator_run :
    string → option string → bool → Z → option string → RunResult;
  (* validator.Validator(cmd).fix(filename, cwd): [None] when it returns *)
  validator_fix : string → string → option string → option Exn;
  (* ASHES_ENV.render(template, context) *)
  ashes_render : string → gmap string CtxVal → string;
  (* time.strftime(format) *)
  time_strftime : string → string;
  (* int(text): [None] stands for ValueError *)
  py_int : string → option Z
}.

(** Observable actions, as the script performs them. *)
Inductive Event :=
  | EvPrint (text : string)
  | EvCall (argv : list string)
  | EvValidatorRun (cmd : string) (filename : option string)
      (input_is_html : bool) (line_offset : Z) (cwd : option string)
  | EvValidatorFix (cmd filename : string) (cwd : option string).

(** ** Effects: a trace-and-outcome monad *)

Inductive Outcome (A : Type) :=
  | Return (a : A)
  | Raise (e : Exn)
  | SysExit.
Arguments Return {A} a.
Arguments Raise {A} e.
Arguments SysExit {A}.

Definition M (A : Type) : Type := Outcome A * list Event.

Definition ret {A} (a : A) : M A := (Return a, []).

Definition bind {A B} (m : M A) (f : A → M B) : M B :=
  match m with
  | (Return a, t) => let '(o, t') := f a in (o, (t ++ t')%list)
  | (Raise e, t) => (Raise e, t)
  | (SysExit, t) => (SysExit, t)
  end.

Notation "'let!' x ':=' m 'in' k" := (bind m (λ x, k))
  (at level 10, x name, m at level 100, k at level 200, only parsing).
Notation "m '>>' k" := (bind m (λ _, k))
  (at level 100, k at level 200, right associativity, only parsing).

Definition raise {A} (e : Exn) : M A := (Raise e, []).
Definition sys_exit {A} : M A := (SysExit, []).
Definition emit (ev : Event) : M unit := (Return tt, [ev]).

Definition outcome {A} (m : M A) : Outcome A := m.1.
Definition trace {A} (m : M A) : list Event := m.2.

(** [for x in xs: body(x)] *)
Fixpoint for_each {A} (xs : list A) (body : A → M unit) : M unit :=
  match xs with
  | [] => ret tt
  | x :: xs' => body x >> for_each xs' body
  end.

(** ** Builtins *)

(** [os.environ[key]] *)
Definition environ_getitem (env : gmap string string) (key : string) : M string :=
  match env !! key with
  | Some v => ret v
  | None => raise (KeyError key)
  end.

(** [os.environ.get(key, dflt)] *)
Definition environ_get (env : gmap string string) (key dflt : string) : string :=
  default dflt (env !! key).

(** [print(text)] *)
Definition print (text : string) : M unit := emit (EvPrint text).

(** [subprocess.call(argv)]: the helper is launched with [argv] and waited
    for; the script drops its return code. *)
Definition subprocess_call (argv : list string) : M unit := emit (EvCall argv).

(** [s.startswith(p)] *)
Definition startswith (s p : string) : bool := String.prefix p s.

(** [x in xs] on a list of strings *)
Fixpoint py_in (x : string) (xs : list string) : bool :=
  match xs with
  | [] => false
  | y :: ys => if String.eqb x y then true else py_in x ys
  end.

(** Truth value of a string (or None): only [None] and [''] are false. *)
Definition str_truthy (s : string) : bool :=
  match s with
  | EmptyString => false
  | String _ _ => true
  end.

Definition opt_truthy (o : option string) : bool :=
  match o with
  | Some s => str_truthy s
  | None => false
  end.

(** [os.path.basename(p)]: what follows the last ['/']. *)
Fixpoint basename_from (acc p : string) : string :=
  match p with
  | EmptyString => acc
  | String c rest =>
      if Ascii.eqb c "/"%char then basename_from "" rest
      else basename_from (acc +:+ String c "") rest
  end.

Definition basename (p : string) : string := basename_from "" p.

(** The carriage return of ['\r']. *)
Definition CR : string := String (Ascii.ascii_of_nat 13) "".

(** ** Module level *)

(** [BASE_PATH = 'tm-file://' + os.environ['TM_BUNDLE_SUPPORT']] *)
Definition module_BASE_PATH (env : gmap string string) : M string :=
  let! support := environ_getitem env "TM_BUNDLE_SUPPORT" in
  ret ("tm-file://" +:+ support).

(** ** [validate] *)

(** The [except validator.ValidateError] handler. *)
Definition validate_error_context (w : World) (BASE_PATH message : string)
    : gmap string CtxVal :=
  <["errorMessage" := VStr message]>
    (<["timestamp" := VStr (time_strftime w "%c")]>
       (<["BASE_PATH" := VStr BASE_PATH]> ∅)).

Definition validate_handler (w : World) (BASE_PATH message : string)
    (path : option string) : M (list Issue) :=
  let context := validate_error_context w BASE_PATH message in
  let html :=
    if opt_truthy path then
      ashes_render w "error_eslint_path.html"
        (<["searchPath" := VStr (default "" path)]> context)
    else
      ashes_render w "error_eslint_other.html" context in
  print html >>
  sys_exit.

(** Lines 26 and 166: the linter command, ['eslint'] unless overridden. *)
Definition eslint_command_of (env : gmap string string) : string :=
  environ_get env "TM_JAVASCRIPT_ESLINT_ESLINT" "eslint".

(** Lines 32 to 34 and 169 to 171: [TM_DIRECTORY], or the project directory
    when that one is unset or empty. *)
Definition working_directory (env : gmap string string) : option string :=
  let cwd := env !! "TM_DIRECTORY" in
  if opt_truthy cwd then cwd else env !! "TM_PROJECT_DIRECTORY".

(** [int(os.environ.get('TM_INPUT_START_LINE', 1))] *)
Definition input_start_line (w : World) (env : gmap string string) : M Z :=
  match env !! "TM_INPUT_START_LINE" with
  | None => ret 1%Z
  | Some text =>
      match py_int w text with
      | Some n => ret n
      | None => raise (ValueError text)
      end
  end.

Definition validate (w : World) (BASE_PATH : string) (env : gmap string string)
    : M (list Issue) :=
  let eslint_command := eslint_command_of env in
  let filename := env !! "TM_FILEPATH" in
  let! scope := environ_getitem env "TM_SCOPE" in
  let input_is_html := negb (startswith scope "source.js") in
  let! start := input_start_line w env in
  let line_offset := (start - 1)%Z in
  let cwd := working_directory env in
  emit (EvValidatorRun eslint_command filename input_is_html line_offset cwd) >>
  match validator_run w eslint_command filename input_is_html line_offset cwd with
  | RunIssues issues => ret issues
  | RunRaises (ValidateError message path) =>
      validate_handler w BASE_PATH message path
  | RunRaises e => raise e
  end.

(** ** Counting errors and warnings *)

(** The loop that [full_report] and [quiet] both run over the issues:
    [error_count] and [warning_count] start at 0 and are bumped per flag. *)
Definition count_step (counts : nat * nat) (issue : Issue) : nat * nat :=
  let '(error_count, warning_count) := counts in
  let error_count := if isError issue then error_count + 1 else error_count in
  let warning_count :=
    if isWarning issue then warning_count + 1 else warning_count in
  (error_count, warning_count).

Definition count_issues (issues : list Issue) : nat * nat :=
  foldl count_step (0, 0) issues.

(** ** [full_report] *)

Definition report_context (BASE_PATH : string) (env : gmap string string)
    (issues : list Issue) : gmap string CtxVal :=
  let context : gmap string CtxVal :=
    <["targetUrl" := VStr "txmt://open?line=1&amp;column=0"]>
      (<["targetFilename" := VStr "(current unsaved file)"]>
         (<["issues" := VIssues issues]>
            (<["BASE_PATH" := VStr BASE_PATH]> ∅))) in
  let context :=
    match env !! "TM_FILEPATH" with
    | Some file_path =>
        <["targetUrl" := VStr ("txmt://open?url=file://" +:+ file_path)]>
          (<["targetFilename" := VStr (basename file_path)]> context)
    | None => context
    end in
  let '(error_count, warning_count) := count_issues issues in
  let context :=
    <["hasErrorsOrWarnings" := VBool (0 <? error_count + warning_count)]>
      context in
  let context :=
    if error_count =? 1 then <["errorCountString" := VStr "1 error"]> context
    else if negb (error_count =? 0) then
      <["errorCountString" := VStr (pretty error_count +:+ " errors")]> context
    else context in
  let context :=
    if warning_count =? 1 then
      <["warningCountString" := VStr "1 warning"]> context
    else if negb (warning_count =? 0) then
      <["warningCountString" := VStr (pretty warning_count +:+ " warnings")]>
        context
    else context in
  context.

Definition full_report (w : World) (BASE_PATH : string)
    (env : gmap string string) : M unit :=
  let! issues := validate w BASE_PATH env in
  let context := report_context BASE_PATH env issues in
  let html := ashes_render w "report.html" context in
  print html.

(** ** [update_gutter_marks] *)

(** The body of the first loop: the pair [(msg, pos)] of one issue. *)
Definition mark_of (item : Issue) : string * string :=
  let msg := reason item in
  let msg :=
    match shortname item with
    | Some rule => msg +:+ " (" +:+ rule +:+ ")"
    | None => msg
    end in
  let pos := pretty (line item) +:+ ":" +:+ pretty (character item) in
  (msg, pos).

Definition collect_marks (issues : list Issue) : list (string * string) :=
  foldl (λ marks item, marks ++ [mark_of item]) [] issues.

Definition set_mark_argv (mate file_path : string) (mark : string * string)
    : list string :=
  [mate; "--set-mark=warning:[ESLint] " +:+ mark.1; "--line=" +:+ mark.2;
   file_path].

Definition clear_mark_argv (mate file_path : string) : list string :=
  [mate; "--clear-mark=warning"; file_path].

Definition update_gutter_marks (env : gmap string string) (issues : list Issue)
    : M unit :=
  let! mate := environ_getitem env "TM_MATE" in
  let! file_path := environ_getitem env "TM_FILEPATH" in
  let marks := collect_marks issues in
  subprocess_call (clear_mark_argv mate file_path) >>
  for_each marks (λ mark, subprocess_call (set_mark_argv mate file_path mark)).

(** ** [quiet] *)

Definition HINT : string :=
  CR +:+ CR +:+ "Press Shift-Ctrl-V to view the full report.".

(** Lines 106 to 122: from the issues to the text that is printed. *)
Definition quiet_summary (issues : list Issue) : string :=
  let '(error_count, warning_count) := count_issues issues in
  let parts : list string := [] in
  let parts :=
    if negb (error_count =? 0) then
      parts ++ [pretty error_count +:+ " error" +:+
                (if 1 <? error_count then "s" else "")]
    else parts in
  let parts :=
    if 0 <? warning_count then
      parts ++ [pretty warning_count +:+ " warning" +:+
                (if 1 <? warning_count then "s" else "")]
    else parts in
  let result := String.concat ", " parts in
  if str_truthy result then result +:+ HINT else result.

Definition quiet (w : World) (BASE_PATH : string) (env : gmap string string)
    : M unit :=
  let! issues := validate w BASE_PATH env in
  update_gutter_marks env issues >>
  print (quiet_summary issues).

(** ** [fix] *)

Definition fix_ (w : World) (env : gmap string string) : M unit :=
  match env !! "TM_FILEPATH" with
  | None => ret tt
  | Some _ =>
      let! scope := environ_getitem env "TM_SCOPE" in
      if negb (startswith scope "source.js") then ret tt
      else
        let eslint_command := eslint_command_of env in
        let! filename := environ_getitem env "TM_FILEPATH" in
        let cwd := working_directory env in
        emit (EvValidatorFix eslint_command filename cwd) >>
        match validator_fix w eslint_command filename cwd with
        | Some e => raise e
        | None =>
            let! mate := environ_getitem env "TM_MATE" in
            subprocess_call (clear_mark_argv mate filename)
        end
  end.

(** ** The [__main__] block *)

Definition main_block (w : World) (BASE_PATH : string)
    (env : gmap string string) (argv : list string) : M unit :=
  if py_in "--html" argv then full_report w BASE_PATH env
  else if py_in "--fix" argv then fix_ w env
  else quiet w BASE_PATH env.

(** Running the script: the module level first, then the [__main__] block. *)
Definition main (w : World) (env : gmap string string) (argv : list string)
    : M unit :=
  let! BASE_PATH := module_BASE_PATH env in
  main_block w BASE_PATH env argv.

(** ** Vocabulary of the specification *)

(** Number of issues with a flag set. *)
Definition num_flagged (flag : Issue → bool) (issues : list Issue) : nat :=
  length (List.filter flag issues).

(** The count phrase of the specification: singular for 1, plural otherwise. *)
Definition spec_count_phrase (n : nat) (noun : string) : string :=
  if n =? 1 then "1 " +:+ noun else pretty n +:+ " " +:+ noun +:+ "s".

(** The tooltip text of the specification, from the two counts. *)
Definition spec_tooltip (errors warnings : nat) : string :=
  match errors, warnings with
  | 0, 0 => ""
  | S _, 0 => spec_count_phrase errors "error" +:+ HINT
  | 0, S _ => spec_count_phrase warnings "warning" +:+ HINT
  | S _, S _ =>
      spec_count_phrase errors "error" +:+ ", " +:+
      spec_count_phrase warnings "warning" +:+ HINT
  end.

(** The count string of the report context: absent for a zero count. *)
Definition spec_count_entry (n : nat) (noun : string) : option CtxVal :=
  if n =? 0 then None else Some (VStr (spec_count_phrase n noun)).

(** The label and the position of a gutter mark, as the specification
    words them. *)
Definition spec_label (issue : Issue) : string :=
  match shortname issue with
  | Some rule => reason issue +:+ " (" +:+ rule +:+ ")"
  | None => reason issue
  end.

Definition spec_position (issue : Issue) : string :=
  pretty (line issue) +:+ ":" +:+ pretty (character issue).

(** The call of [the_validator.run] that [validate] makes in a buffer of
    scope [scope] whose region starts at line [start], and what the
    validator answers to it. *)
Definition validator_run_event (env : gmap string string) (scope : string)
    (start : Z) : Event :=
  EvValidatorRun (eslint_command_of env) (env !! "TM_FILEPATH")
    (negb (startswith scope "source.js")) (start - 1) (working_directory env).

Definition validator_run_result (w : World) (env : gmap string string)
    (scope : string) (start : Z) : RunResult :=
  validator_run w (eslint_command_of env) (env !! "TM_FILEPATH")
    (negb (startswith scope "source.js")) (start - 1) (working_directory env).

(** Recognising the two kinds of helper command in a trace. *)
Definition is_clear_mark (ev : Event) : bool :=
  match ev with
  | EvCall [_; flag; _] => String.eqb flag "--clear-mark=warning"
  | _ => false
  end.

Definition is_set_mark (ev : Event) : bool :=
  match ev with
  | EvCall [_; flag; _; _] => startswith flag "--set-mark="
  | _ => false
  end.

Definition is_print (ev : Event) : bool :=
  match ev with
  | EvPrint _ => true
  | _ => false
  end.

(** More observers of a trace: the linter calls, the helper commands, and
    how many events of one kind a run has. *)
Definition is_linter_run (ev : Event) : bool :=
  match ev with
  | EvValidatorRun _ _ _ _ _ | EvValidatorFix _ _ _ => true
  | _ => false
  end.

Definition is_helper_call (ev : Event) : bool :=
  match ev with
  | EvCall _ => true
  | _ => false
  end.

Definition count_events (kind : Event → bool) (t : list Event) : nat :=
  length (List.filter kind t).

(** Whether a path has a ['/'] in it. *)
Fixpoint has_slash (s : string) : bool :=
  match s with
  | EmptyString => false
  | String c rest => Ascii.eqb c "/"%char || has_slash rest
  end.

(** The string stored under a key of a context, if there is one. *)
Definition context_string (context : gmap string CtxVal) (key : string)
    : option string :=
  match context !! key with
  | Some (VStr s) => Some s
  | _ => None
  end.

(** ** Sample runs *)

Module Sample.

Definition missing_semicolon : Issue :=
  mkIssue 3 5 "Missing semicolon" None true false.

Definition unused_variable : Issue :=
  mkIssue 7 1 "'x' is defined but never used" (Some "no-unused-vars")
    false true.

Definition issues : list Issue := [missing_semicolon; unused_variable].

(** The builtin [int] on the few texts the sample runs meet. *)
Definition int_of_digits (text : string) : option Z :=
  match text with
  | "1" => Some 1%Z
  | "10" => Some 10%Z
  | _ => None
  end.

Definition render (template : string) (context : gmap string CtxVal)
    : string :=
  match context !! "searchPath" with
  | Some (VStr path) => template +:+ " " +:+ path
  | _ => template
  end.

(** The linter finds [issues]. *)
Definition linting : World :=
  mkWorld (λ _ _ _ _ _, RunIssues issues) (λ _ _ _, None)
    render (λ _, "Wed Nov  4 12:00:00 2026") int_of_digits.

(** The linter cannot find its configuration under [/project]. *)
Definition misconfigured : World :=
  mkWorld
    (λ _ _ _ _ _,
       RunRaises (ValidateError "No ESLint configuration found"
                    (Some "/project")))
    (λ _ _ _, None)
    render (λ _, "Wed Nov  4 12:00:00 2026") int_of_digits.

Definition base_path : string := "tm-file:///bundle/Support".

(** A saved plain-script buffer. *)
Definition saved : gmap string string :=
  <["TM_MATE" := "/usr/local/bin/mate"]>
    (<["TM_FILEPATH" := "/project/app.js"]>
       (<["TM_SCOPE" := "source.js"]>
          (<["TM_BUNDLE_SUPPORT" := "/bundle/Support"]> ∅))).

(** An unsaved plain-script buffer: no [TM_FILEPATH]. *)
Definition unsaved : gmap string string :=
  <["TM_MATE" := "/usr/local/bin/mate"]>
    (<["TM_SCOPE" := "source.js"]>
       (<["TM_BUNDLE_SUPPORT" := "/bundle/Support"]> ∅)).

(** A saved markup buffer with an embedded script. *)
Definition embedded : gmap string string :=
  <["TM_MATE" := "/usr/local/bin/mate"]>
    (<["TM_FILEPATH" := "/project/index.html"]>
       (<["TM_SCOPE" := "text.html.basic source.js.embedded.html"]>
          (<["TM_BUNDLE_SUPPORT" := "/bundle/Support"]> ∅))).

(** The linter cannot be launched at all. *)
Definition crashing : World :=
  mkWorld (λ _ _ _ _ _, RunRaises (OtherError "OSError"))
    (λ _ _ _, Some (OtherError "OSError"))
    render (λ _, "Wed Nov  4 12:00:00 2026") int_of_digits.

(** Findings that are neither errors nor warnings. *)
Definition notes : list Issue :=
  [mkIssue 1 1 "Parsing note" None false false].

(** A saved buffer for which the editor gives no scope. *)
Definition no_scope : gmap string string :=
  <["TM_MATE" := "/usr/local/bin/mate"]>
    (<["TM_FILEPATH" := "/project/app.js"]>
       (<["TM_BUNDLE_SUPPORT" := "/bundle/Support"]> ∅)).

(** A saved buffer whose start line is not a number. *)
Definition bad_start_line : gmap string string :=
  <["TM_INPUT_START_LINE" := "first"]> saved.


(** A saved plain-script buffer, the helper path unset. *)
Definition no_mate : gmap string string :=
  <["TM_FILEPATH" := "/project/app.js"]>
    (<["TM_SCOPE" := "source.js"]>
       (<["TM_BUNDLE_SUPPORT" := "/bundle/Support"]> ∅)).

(** A saved plain-script buffer, the bundle support path unset. *)
Definition no_support : gmap string string :=
  <["TM_MATE" := "/usr/local/bin/mate"]>
    (<["TM_FILEPATH" := "/project/app.js"]>
       (<["TM_SCOPE" := "source.js"]> ∅)).

End Sample.

(** * Properties *)

(** ** Strings *)

Lemma append_cons (c : ascii) (s t : string) :
  String c s +:+ t = String c (s +:+ t).
Proof. reflexivity. Qed.

Lemma append_assoc (s t u : string) : (s +:+ t) +:+ u = s +:+ t +:+ u.
Proof.
  induction s as [|c s IH]; [reflexivity|].
  rewrite !append_cons. by rewrite IH.
Qed.

Lemma py_in_elem_of (x : string) (xs : list string) :
  py_in x xs = true ↔ x ∈ xs.
Proof.
  induction xs as [|y ys IH]; simpl.
  - split; [done|]. by intros ?%elem_of_nil.
  - destruct (String.eqb_spec x y) as [->|Hne].
    + split; [intros _; by left|done].
    + rewrite IH. split; [by right|].
      intros [?|?]%elem_of_cons; [done|done].
Qed.

Lemma py_in_not_elem_of (x : string) (xs : list string) :
  py_in x xs = false ↔ x ∉ xs.
Proof.
  rewrite <-py_in_elem_of. by destruct (py_in x xs).
Qed.

(** ** The monad *)

Lemma bind_return {A B} (a : A) (t : list Event) (f : A → M B) :
  bind (Return a, t) f = ((f a).1, t ++ (f a).2).
Proof. simpl. by destruct (f a). Qed.

Lemma for_each_calls {A} (xs : list A) (argv_of : A → list string) :
  for_each xs (λ x, subprocess_call (argv_of x))
  = (Return tt, map (λ x, EvCall (argv_of x)) xs).
Proof.
  induction xs as [|x xs IH]; [reflexivity|].
  simpl. by rewrite IH.
Qed.

(** ** The counting loop *)

Lemma count_issues_from (issues : list Issue) (e w : nat) :
  foldl count_step (e, w) issues
  = (e + num_flagged isError issues, w + num_flagged isWarning issues).
Proof.
  revert e w. induction issues as [|i issues IH]; intros e w.
  - unfold num_flagged. simpl. f_equal; lia.
  - change (foldl count_step (e, w) (i :: issues))
      with (foldl count_step (count_step (e, w) i) issues).
    unfold count_step at 2, num_flagged. simpl.
    destruct (isError i), (isWarning i); rewrite IH; unfold num_flagged;
      simpl; f_equal; lia.
Qed.

Lemma count_issues_flagged (issues : list Issue) :
  count_issues issues
  = (num_flagged isError issues, num_flagged isWarning issues).
Proof. unfold count_issues. by rewrite count_issues_from. Qed.

(** ** The marks *)

Lemma collect_marks_from (issues : list Issue) (acc : list (string * string)) :
  foldl (λ marks item, marks ++ [mark_of item]) acc issues
  = acc ++ map mark_of issues.
Proof.
  revert acc. induction issues as [|i issues IH]; intros acc; simpl.
  - by rewrite app_nil_r.
  - rewrite IH. by rewrite <-app_assoc.
Qed.

Lemma collect_marks_map (issues : list Issue) :
  collect_marks issues = map mark_of issues.
Proof. unfold collect_marks. by rewrite collect_marks_from. Qed.

Lemma mark_of_spec (issue : Issue) :
  mark_of issue = (spec_label issue, spec_position issue).
Proof.
  unfold mark_of, spec_label, spec_position. by destruct (shortname issue).
Qed.

(** ** The tooltip text *)

Lemma append_empty_r (s : string) : s +:+ "" = s.
Proof. induction s as [|c s IH]; [done|]. by rewrite append_cons, IH. Qed.

Lemma str_truthy_append (s t : string) :
  str_truthy s = true → str_truthy (s +:+ t) = true.
Proof. by destruct s. Qed.

Lemma spec_count_phrase_truthy (n : nat) (noun : string) :
  str_truthy (spec_count_phrase n noun) = true.
Proof.
  unfold spec_count_phrase. destruct (n =? 1); [done|].
  by destruct (pretty n).
Qed.

Lemma format_count (n : nat) (noun : string) :
  n ≠ 0 →
  pretty n +:+ (" " +:+ noun) +:+ (if 1 <? n then "s" else "")
  = spec_count_phrase n noun.
Proof.
  intros Hn. unfold spec_count_phrase.
  destruct n as [|[|n]]; [done| |].
  - change (pretty 1) with "1". cbn [Nat.ltb Nat.leb Nat.eqb].
    rewrite append_empty_r. reflexivity.
  - cbn [Nat.ltb Nat.leb Nat.eqb]. by rewrite append_assoc.
Qed.

Lemma with_hint_truthy (s : string) :
  str_truthy s = true → (if str_truthy s then s +:+ HINT else s) = s +:+ HINT.
Proof. by intros ->. Qed.

Lemma quiet_summary_counts (issues : list Issue) :
  quiet_summary issues
  = spec_tooltip (num_flagged isError issues) (num_flagged isWarning issues).
Proof.
  unfold quiet_summary. rewrite count_issues_flagged.
  generalize (num_flagged isError issues) (num_flagged isWarning issues).
  intros e w.
  change " error" with (" " +:+ "error").
  change " warning" with (" " +:+ "warning").
  destruct e as [|e], w as [|w]; [reflexivity| | |].
  - change (negb (0 =? 0)) with false. change (0 <? S w) with true. cbv iota.
    rewrite format_count by done. cbn [app String.concat spec_tooltip].
    by rewrite with_hint_truthy by apply spec_count_phrase_truthy.
  - change (negb (S e =? 0)) with true. change (0 <? 0) with false. cbv iota.
    rewrite format_count by done. cbn [app String.concat spec_tooltip].
    by rewrite with_hint_truthy by apply spec_count_phrase_truthy.
  - change (negb (S e =? 0)) with true. change (0 <? S w) with true. cbv iota.
    rewrite !format_count by done. cbn [app String.concat spec_tooltip].
    rewrite with_hint_truthy
      by apply str_truthy_append, spec_count_phrase_truthy.
    by rewrite !append_assoc.
Qed.

Lemma str_truthy_nonempty (s : string) : str_truthy s = true → s ≠ "".
Proof. by destruct s. Qed.

Lemma spec_tooltip_empty (errors warnings : nat) :
  spec_tooltip errors warnings = "" ↔ errors = 0 ∧ warnings = 0.
Proof.
  split; [|by intros [-> ->]].
  destruct errors as [|e], warnings as [|w]; [done| | |];
    unfold spec_tooltip; intros Hs; exfalso;
    eapply str_truthy_nonempty; try exact Hs;
    repeat apply str_truthy_append; apply spec_count_phrase_truthy.
Qed.

(** C1: the text [quiet] prints is the two count phrases joined by a comma,
    singular for a count of 1, plural from 2 on, a category with count 0
    left out; it is empty when both counts are 0, and otherwise ends with
    the hint line.  One issue flagged as an error gives
    ['1 error\r\rPress Shift-Ctrl-V to view the full report.']. *)
Theorem quiet_summary_tooltip (issues : list Issue) :
  let errors := num_flagged isError issues in
  let warnings := num_flagged isWarning issues in
  quiet_summary issues = spec_tooltip errors warnings
  ∧ (quiet_summary issues = "" ↔ errors = 0 ∧ warnings = 0)
  ∧ (∀ l c r rule,
       quiet_summary [mkIssue l c r rule true false]
       = "1 error" +:+ CR +:+ CR +:+
         "Press Shift-Ctrl-V to view the full report.").
Proof.
  intros errors warnings. split_and!.
  - apply quiet_summary_counts.
  - rewrite quiet_summary_counts. apply spec_tooltip_empty.
  - intros l c r rule. reflexivity.
Qed.

(** ** The gutter marks *)

Section GutterMarks.
Context (env : gmap string string) (mate file_path : string).
Hypothesis Hmate : env !! "TM_MATE" = Some mate.
Hypothesis Hfile : env !! "TM_FILEPATH" = Some file_path.

Lemma update_gutter_marks_run (issues : list Issue) :
  update_gutter_marks env issues
  = (Return tt,
     EvCall (clear_mark_argv mate file_path)
     :: map (λ issue, EvCall (set_mark_argv mate file_path (mark_of issue)))
          issues).
Proof using Hmate Hfile.
  unfold update_gutter_marks, environ_getitem. rewrite Hmate, Hfile.
  rewrite collect_marks_map. simpl.
  rewrite for_each_calls. by rewrite map_map.
Qed.

Lemma set_marks_recognised (issues : list Issue) :
  let sets :=
    map (λ issue, EvCall (set_mark_argv mate file_path (mark_of issue)))
      issues in
  List.filter is_set_mark sets = sets ∧ List.filter is_clear_mark sets = [].
Proof.
  induction issues as [|issue issues [IHs IHc]]; [done|].
  simpl in *. by rewrite IHs, IHc.
Qed.

(** C2: the gutter-mark updater issues the clear command once, first, and
    then one set command per issue, in the order of the issues; for no
    issues it issues the clear command alone. *)
Theorem update_gutter_marks_commands (issues : list Issue) :
  let run := update_gutter_marks env issues in
  let sets :=
    map (λ issue, EvCall (set_mark_argv mate file_path (mark_of issue)))
      issues in
  outcome run = Return tt
  ∧ trace run = EvCall [mate; "--clear-mark=warning"; file_path] :: sets
  ∧ length (List.filter is_clear_mark (trace run)) = 1
  ∧ List.filter is_set_mark (trace run) = sets
  ∧ length sets = length issues
  ∧ trace (update_gutter_marks env [])
    = [EvCall [mate; "--clear-mark=warning"; file_path]].
Proof using Hmate Hfile.
  intros run sets. subst run.
  rewrite !update_gutter_marks_run. unfold outcome, trace. simpl.
  destruct (set_marks_recognised issues) as [Hs Hc]. fold sets in Hs, Hc.
  fold sets. rewrite Hs, Hc. split_and!; try done.
  subst sets. by rewrite length_map.
Qed.

(** C8: the set command of an issue carries the label (the message, with
    the rule identifier in parentheses when there is one) and the position
    [line:column]. *)
Theorem update_gutter_marks_set_mark (issues : list Issue) (n : nat)
    (issue : Issue) :
  issues !! n = Some issue →
  trace (update_gutter_marks env issues) !! S n
  = Some (EvCall [mate;
                  "--set-mark=warning:[ESLint] " +:+ spec_label issue;
                  "--line=" +:+ spec_position issue;
                  file_path])
  ∧ spec_label issue
    = reason issue +:+
      match shortname issue with
      | Some rule => " (" +:+ rule +:+ ")"
      | None => ""
      end
  ∧ spec_position issue
    = pretty (line issue) +:+ ":" +:+ pretty (character issue).
Proof using Hmate Hfile.
  intros Hn. split_and!.
  - rewrite update_gutter_marks_run. unfold trace. simpl.
    rewrite list_lookup_fmap, Hn. simpl.
    by rewrite mark_of_spec.
  - unfold spec_label. destruct (shortname issue); [done|].
    by rewrite append_empty_r.
  - done.
Qed.

End GutterMarks.

Lemma update_gutter_marks_commands_sample :
  trace (update_gutter_marks Sample.saved Sample.issues)
  = [EvCall ["/usr/local/bin/mate"; "--clear-mark=warning"; "/project/app.js"];
     EvCall ["/usr/local/bin/mate";
             "--set-mark=warning:[ESLint] Missing semicolon";
             "--line=3:5"; "/project/app.js"];
     EvCall ["/usr/local/bin/mate";
             "--set-mark=warning:[ESLint] 'x' is defined but never used (no-unused-vars)";
             "--line=7:1"; "/project/app.js"]].
Proof.
  pose proof (update_gutter_marks_commands Sample.saved
                "/usr/local/bin/mate" "/project/app.js"
                eq_refl eq_refl Sample.issues) as (_ & Htrace & _).
  exact Htrace.
Defined.

Lemma update_gutter_marks_set_mark_sample :
  trace (update_gutter_marks Sample.saved Sample.issues) !! 2
  = Some (EvCall ["/usr/local/bin/mate";
                  "--set-mark=warning:[ESLint] 'x' is defined but never used (no-unused-vars)";
                  "--line=7:1"; "/project/app.js"]).
Proof.
  pose proof (update_gutter_marks_set_mark Sample.saved
                "/usr/local/bin/mate" "/project/app.js"
                eq_refl eq_refl Sample.issues 1 Sample.unused_variable
                eq_refl) as (Hset & _).
  exact Hset.
Defined.

(** ** The report context *)

Section ReportContext.
Context (BASE_PATH : string) (env : gmap string string) (issues : list Issue).

Local Ltac report_context_cases :=
  unfold report_context, spec_count_entry, spec_count_phrase;
  rewrite count_issues_flagged;
  generalize (num_flagged isError issues) (num_flagged isWarning issues);
  intros errors warnings;
  destruct (env !! "TM_FILEPATH") as [file_path|];
  destruct errors as [|[|errors]], warnings as [|[|warnings]];
  cbn [Nat.eqb negb].

Lemma report_context_flag :
  report_context BASE_PATH env issues !! "hasErrorsOrWarnings"
  = Some (VBool (0 <? num_flagged isError issues
                      + num_flagged isWarning issues)).
Proof. report_context_cases; by simplify_map_eq. Qed.

Lemma report_context_error_string :
  report_context BASE_PATH env issues !! "errorCountString"
  = spec_count_entry (num_flagged isError issues) "error".
Proof. report_context_cases; by simplify_map_eq. Qed.

Lemma report_context_warning_string :
  report_context BASE_PATH env issues !! "warningCountString"
  = spec_count_entry (num_flagged isWarning issues) "warning".
Proof. report_context_cases; by simplify_map_eq. Qed.

Lemma report_context_keys :
  dom (report_context BASE_PATH env issues)
  ⊆ {[ "BASE_PATH"; "issues"; "targetFilename"; "targetUrl";
       "hasErrorsOrWarnings"; "errorCountString"; "warningCountString" ]}.
Proof.
  report_context_cases; rewrite !dom_insert_L, dom_empty_L;
    set_unfold; intros key; tauto.
Qed.

(** C3: the flag [hasErrorsOrWarnings] of the report context is true exactly
    when the number of issues flagged as errors plus the number flagged as
    warnings is greater than zero. *)
Theorem report_context_has_issues :
  ∃ flag : bool,
    report_context BASE_PATH env issues !! "hasErrorsOrWarnings"
    = Some (VBool flag)
    ∧ (flag = true
       ↔ 0 < num_flagged isError issues + num_flagged isWarning issues).
Proof.
  eexists. split; [apply report_context_flag|].
  by rewrite Nat.ltb_lt.
Qed.

(** C4, as amended: the report context holds the flag, and for each category
    the count phrase (['1 error'], ['N errors'], ['1 warning'],
    ['N warnings']) exactly when the count of that category is not zero;
    for a zero count the key is absent.  The counts themselves are no
    entries: the keys of the context are among the seven listed. *)
Theorem report_context_count_strings :
  let errors := num_flagged isError issues in
  let warnings := num_flagged isWarning issues in
  let context := report_context BASE_PATH env issues in
  context !! "hasErrorsOrWarnings" = Some (VBool (0 <? errors + warnings))
  ∧ context !! "errorCountString"
    = (if errors =? 0 then None
       else Some (VStr (if errors =? 1 then "1 error"
                        else pretty errors +:+ " errors")))
  ∧ context !! "warningCountString"
    = (if warnings =? 0 then None
       else Some (VStr (if warnings =? 1 then "1 warning"
                        else pretty warnings +:+ " warnings")))
  ∧ dom context
    ⊆ {[ "BASE_PATH"; "issues"; "targetFilename"; "targetUrl";
         "hasErrorsOrWarnings"; "errorCountString"; "warningCountString" ]}.
Proof.
  intros errors warnings context. subst context. split_and!.
  - apply report_context_flag.
  - rewrite report_context_error_string. fold errors.
    unfold spec_count_entry, spec_count_phrase.
    by destruct (errors =? 0), (errors =? 1).
  - rewrite report_context_warning_string. fold warnings.
    unfold spec_count_entry, spec_count_phrase.
    by destruct (warnings =? 0), (warnings =? 1).
  - apply report_context_keys.
Qed.

End ReportContext.

(** C4, as the claim words it, fails when there are no issues: neither
    count string is in the context, and no entry holds a count. *)
Lemma report_context_no_issues :
  let context := report_context Sample.base_path Sample.saved [] in
  context !! "errorCountString" = None
  ∧ context !! "warningCountString" = None
  ∧ dom context = {[ "BASE_PATH"; "issues"; "targetFilename"; "targetUrl";
                     "hasErrorsOrWarnings" ]}.
Proof.
  split_and!.
  - by rewrite report_context_error_string.
  - by rewrite report_context_warning_string.
  - unfold report_context, Sample.saved. simplify_map_eq.
    rewrite !dom_insert_L, dom_empty_L.
    apply set_eq; intros key. set_unfold. tauto.
Qed.

(** ** Validation *)

Section Validate.
Context (w : World) (BASE_PATH : string) (env : gmap string string).
Context (scope : string) (start : Z).
Hypothesis Hscope : env !! "TM_SCOPE" = Some scope.
Hypothesis Hstart : input_start_line w env = ret start.

Lemma validate_returns (issues : list Issue) :
  validator_run_result w env scope start
  = RunIssues issues →
  validate w BASE_PATH env
  = (Return issues, [validator_run_event env scope start]).
Proof using Hscope Hstart.
  unfold validator_run_result, validator_run_event. intros Hrun.
  unfold validate, environ_getitem. rewrite Hscope. simpl.
  rewrite Hstart. simpl. by rewrite Hrun.
Qed.

Lemma validate_fails (message : string) (path : option string) :
  validator_run_result w env scope start
  = RunRaises (ValidateError message path) →
  validate w BASE_PATH env
  = (SysExit,
     [validator_run_event env scope start;
      EvPrint
        (if opt_truthy path then
           ashes_render w "error_eslint_path.html"
             (<["searchPath" := VStr (default "" path)]>
                (validate_error_context w BASE_PATH message))
         else
           ashes_render w "error_eslint_other.html"
             (validate_error_context w BASE_PATH message))]).
Proof using Hscope Hstart.
  unfold validator_run_result, validator_run_event. intros Hrun.
  unfold validate, environ_getitem. rewrite Hscope. simpl.
  rewrite Hstart. simpl. by rewrite Hrun.
Qed.

(** C7: when the validator raises [ValidateError], the report mode prints
    the page of [error_eslint_path.html] if the error has a search path and
    the page of [error_eslint_other.html] if it has none, prints nothing
    else, and exits: the report page is never rendered. *)
Theorem full_report_validation_failure (message : string)
    (path : option string) :
  validator_run_result w env scope start
  = RunRaises (ValidateError message path) →
  let context : gmap string CtxVal :=
    <["errorMessage" := VStr message]>
      (<["timestamp" := VStr (time_strftime w "%c")]>
         (<["BASE_PATH" := VStr BASE_PATH]> ∅)) in
  let page :=
    match path with
    | Some (String c rest) =>
        ashes_render w "error_eslint_path.html"
          (<["searchPath" := VStr (String c rest)]> context)
    | _ => ashes_render w "error_eslint_other.html" context
    end in
  outcome (full_report w BASE_PATH env) = SysExit
  ∧ trace (full_report w BASE_PATH env)
    = [validator_run_event env scope start; EvPrint page]
  ∧ List.filter is_print (trace (full_report w BASE_PATH env))
    = [EvPrint page].
Proof using Hscope Hstart.
  intros Hrun context page.
  assert (full_report w BASE_PATH env
          = (SysExit, [validator_run_event env scope start; EvPrint page]))
    as ->; [|done].
  unfold full_report. rewrite (validate_fails _ _ Hrun). simpl.
  do 3 f_equal. subst page context.
  by destruct path as [[|c rest]|].
Qed.

Lemma quiet_validation_failure (message : string) (path : option string) :
  validator_run_result w env scope start
  = RunRaises (ValidateError message path) →
  outcome (quiet w BASE_PATH env) = SysExit.
Proof using Hscope Hstart.
  intros Hrun. unfold quiet. by rewrite (validate_fails _ _ Hrun).
Qed.

End Validate.

Lemma validate_return_trace (w : World) (BASE_PATH : string)
    (env : gmap string string) (issues : list Issue) (t : list Event) :
  validate w BASE_PATH env = (Return issues, t) →
  ∃ cmd filename input_is_html line_offset cwd,
    t = [EvValidatorRun cmd filename input_is_html line_offset cwd].
Proof.
  unfold validate, environ_getitem, input_start_line, validate_handler.
  destruct (env !! "TM_SCOPE") as [scope|]; [|done]. simpl.
  destruct (env !! "TM_INPUT_START_LINE") as [text|]; simpl.
  - destruct (py_int w text) as [n|]; [|done]. simpl.
    destruct (validator_run _ _ _ _ _ _) as [l|[]]; simpl; intros [= <- <-];
      eauto 10.
  - destruct (validator_run _ _ _ _ _ _) as [l|[]]; simpl; intros [= <- <-];
      eauto 10.
Qed.

Lemma full_report_validation_failure_sample :
  trace (full_report Sample.misconfigured Sample.base_path Sample.saved)
  = [EvValidatorRun "eslint" (Some "/project/app.js") false 0 None;
     EvPrint "error_eslint_path.html /project"].
Proof.
  pose proof (full_report_validation_failure Sample.misconfigured
                Sample.base_path Sample.saved "source.js" 1
                eq_refl eq_refl "No ESLint configuration found"
                (Some "/project") eq_refl) as (_ & Htrace & _).
  exact Htrace.
Defined.

(** ** Autofix *)

(** C6: [fix] returns at once, with no subprocess and no other effect, when
    the file is unsaved or the scope is not a plain-script scope; returning
    is not a failure. *)
Theorem fix_refuses_silently (w : World) (env : gmap string string) :
  env !! "TM_FILEPATH" = None
  ∨ (∃ scope, env !! "TM_SCOPE" = Some scope
              ∧ startswith scope "source.js" = false) →
  fix_ w env = (Return tt, []).
Proof.
  intros [Hfile|(scope & Hscope & Hplain)]; unfold fix_.
  - by rewrite Hfile.
  - destruct (env !! "TM_FILEPATH") as [file_path|]; [|done].
    unfold environ_getitem. rewrite Hscope. simpl. by rewrite Hplain.
Qed.

Lemma fix_refuses_silently_sample :
  fix_ Sample.linting Sample.unsaved = (Return tt, [])
  ∧ fix_ Sample.linting Sample.embedded = (Return tt, []).
Proof.
  split.
  - apply fix_refuses_silently. by left.
  - apply fix_refuses_silently. right.
    exists "text.html.basic source.js.embedded.html". by split.
Defined.

(** C9: when [fix] runs the validator's fix and that returns, it then
    issues one helper command, which clears the warning marks of the file. *)
Theorem fix_clears_marks (w : World) (env : gmap string string)
    (filename scope mate : string) :
  env !! "TM_FILEPATH" = Some filename →
  env !! "TM_SCOPE" = Some scope →
  startswith scope "source.js" = true →
  env !! "TM_MATE" = Some mate →
  validator_fix w (eslint_command_of env) filename (working_directory env)
  = None →
  outcome (fix_ w env) = Return tt
  ∧ trace (fix_ w env)
    = [EvValidatorFix (eslint_command_of env) filename
         (working_directory env);
       EvCall [mate; "--clear-mark=warning"; filename]]
  ∧ List.filter is_clear_mark (trace (fix_ w env))
    = [EvCall [mate; "--clear-mark=warning"; filename]]
  ∧ List.filter is_set_mark (trace (fix_ w env)) = [].
Proof.
  intros Hfile Hscope Hplain Hmate Hfix.
  assert (fix_ w env
          = (Return tt,
             [EvValidatorFix (eslint_command_of env) filename
                (working_directory env);
              EvCall [mate; "--clear-mark=warning"; filename]])) as ->;
    [|done].
  unfold fix_, environ_getitem. rewrite Hfile, Hscope. simpl.
  rewrite Hplain. simpl. rewrite Hfix, Hmate. reflexivity.
Qed.

Lemma fix_clears_marks_sample :
  trace (fix_ Sample.linting Sample.saved)
  = [EvValidatorFix "eslint" "/project/app.js" None;
     EvCall ["/usr/local/bin/mate"; "--clear-mark=warning";
             "/project/app.js"]].
Proof.
  pose proof (fix_clears_marks Sample.linting Sample.saved
                "/project/app.js" "source.js" "/usr/local/bin/mate"
                eq_refl eq_refl eq_refl eq_refl eq_refl) as (_ & Htrace & _).
  exact Htrace.
Defined.

(** ** The dispatcher *)

(** C5: the [__main__] block runs the report when ['--html'] is among the
    arguments, else the fix when ['--fix'] is, else the quiet mode; with
    both flags the report wins. *)
Theorem main_block_dispatch (w : World) (BASE_PATH : string)
    (env : gmap string string) (argv : list string) :
  ("--html" ∈ argv →
     main_block w BASE_PATH env argv = full_report w BASE_PATH env)
  ∧ ("--html" ∉ argv → "--fix" ∈ argv →
     main_block w BASE_PATH env argv = fix_ w env)
  ∧ ("--html" ∉ argv → "--fix" ∉ argv →
     main_block w BASE_PATH env argv = quiet w BASE_PATH env).
Proof.
  unfold main_block. split_and!.
  - intros Hhtml%py_in_elem_of. by rewrite Hhtml.
  - intros Hhtml%py_in_not_elem_of Hfix%py_in_elem_of.
    by rewrite Hhtml, Hfix.
  - intros Hhtml%py_in_not_elem_of Hfix%py_in_not_elem_of.
    by rewrite Hhtml, Hfix.
Qed.

Lemma main_block_dispatch_sample :
  main_block Sample.linting Sample.base_path Sample.saved
    ["main.py"; "--fix"; "--html"]
  = full_report Sample.linting Sample.base_path Sample.saved
  ∧ main_block Sample.linting Sample.base_path Sample.saved
      ["main.py"; "--fix"]
    = fix_ Sample.linting Sample.saved
  ∧ main_block Sample.linting Sample.base_path Sample.saved ["main.py"]
    = quiet Sample.linting Sample.base_path Sample.saved.
Proof.
  split_and!.
  - apply main_block_dispatch. apply py_in_elem_of. reflexivity.
  - apply main_block_dispatch.
    + apply py_in_not_elem_of. reflexivity.
    + apply py_in_elem_of. reflexivity.
  - apply main_block_dispatch; apply py_in_not_elem_of; reflexivity.
Defined.

(** The module level comes first: without [TM_BUNDLE_SUPPORT] no mode is
    entered at all. *)
Lemma main_runs_block (w : World) (env : gmap string string)
    (argv : list string) (support : string) :
  env !! "TM_BUNDLE_SUPPORT" = Some support →
  main w env argv = main_block w ("tm-file://" +:+ support) env argv.
Proof.
  intros Hsupport. unfold main, module_BASE_PATH, environ_getitem.
  rewrite Hsupport. simpl. by destruct (main_block _ _ _ _).
Qed.

Lemma main_without_support (w : World) (env : gmap string string)
    (argv : list string) :
  env !! "TM_BUNDLE_SUPPORT" = None →
  main w env argv = (Raise (KeyError "TM_BUNDLE_SUPPORT"), []).
Proof.
  intros Hsupport. unfold main, module_BASE_PATH, environ_getitem.
  by rewrite Hsupport.
Qed.

(** ** The quiet mode *)

Lemma quiet_run (w : World) (BASE_PATH : string) (env : gmap string string)
    (issues : list Issue) (t : list Event) (mate file_path : string) :
  validate w BASE_PATH env = (Return issues, t) →
  env !! "TM_MATE" = Some mate →
  env !! "TM_FILEPATH" = Some file_path →
  quiet w BASE_PATH env
  = (Return tt,
     t ++ EvCall (clear_mark_argv mate file_path)
       :: map (λ issue, EvCall (set_mark_argv mate file_path (mark_of issue)))
            issues
       ++ [EvPrint (quiet_summary issues)]).
Proof.
  intros Hval Hmate Hfile. unfold quiet. rewrite Hval.
  rewrite bind_return.
  rewrite (update_gutter_marks_run env mate file_path Hmate Hfile). simpl.
  reflexivity.
Qed.

Lemma quiet_run_sample :
  quiet Sample.linting Sample.base_path Sample.saved
  = (Return tt,
     [EvValidatorRun "eslint" (Some "/project/app.js") false 0 None;
      EvCall ["/usr/local/bin/mate"; "--clear-mark=warning";
              "/project/app.js"];
      EvCall ["/usr/local/bin/mate";
              "--set-mark=warning:[ESLint] Missing semicolon";
              "--line=3:5"; "/project/app.js"];
      EvCall ["/usr/local/bin/mate";
              "--set-mark=warning:[ESLint] 'x' is defined but never used (no-unused-vars)";
              "--line=7:1"; "/project/app.js"];
      EvPrint ("1 error, 1 warning" +:+ HINT)]).
Proof.
  rewrite (quiet_run Sample.linting Sample.base_path Sample.saved
             Sample.issues
             [EvValidatorRun "eslint" (Some "/project/app.js") false 0 None]
             "/usr/local/bin/mate" "/project/app.js");
    reflexivity.
Defined.

(** C10, as amended: with no file path set, a quiet run whose validation
    returns the issues raises [KeyError] in the gutter-mark updater (for
    [TM_MATE] when that is unset too, else for [TM_FILEPATH]); nothing has
    been printed and no helper command has been issued by then. *)
Theorem quiet_unsaved_raises (w : World) (BASE_PATH : string)
    (env : gmap string string) (issues : list Issue) (t : list Event) :
  env !! "TM_FILEPATH" = None →
  validate w BASE_PATH env = (Return issues, t) →
  quiet w BASE_PATH env
  = (Raise (KeyError match env !! "TM_MATE" with
                     | Some _ => "TM_FILEPATH"
                     | None => "TM_MATE"
                     end),
     t)
  ∧ List.filter is_print t = []
  ∧ List.filter is_clear_mark t = []
  ∧ List.filter is_set_mark t = [].
Proof.
  intros Hfile Hval.
  destruct (validate_return_trace _ _ _ _ _ Hval)
    as (cmd & filename & html & offset & cwd & ->).
  split; [|done].
  unfold quiet. rewrite Hval. rewrite bind_return.
  unfold update_gutter_marks, environ_getitem. rewrite Hfile.
  destruct (env !! "TM_MATE") as [mate|]; reflexivity.
Qed.

Lemma quiet_unsaved_raises_sample :
  quiet Sample.linting Sample.base_path Sample.unsaved
  = (Raise (KeyError "TM_FILEPATH"),
     [EvValidatorRun "eslint" None false 0 None]).
Proof.
  pose proof (quiet_unsaved_raises Sample.linting Sample.base_path
                Sample.unsaved Sample.issues
                [EvValidatorRun "eslint" None false 0 None]
                eq_refl eq_refl) as (Hrun & _).
  exact Hrun.
Defined.

(** C10, as the claim words it, fails when the validator raises
    [ValidateError]: the run prints the error page and exits, and no lookup
    error is raised. *)
Lemma quiet_unsaved_exits :
  Sample.unsaved !! "TM_FILEPATH" = None
  ∧ quiet Sample.misconfigured Sample.base_path Sample.unsaved
    = (SysExit,
       [EvValidatorRun "eslint" None false 0 None;
        EvPrint "error_eslint_path.html /project"])
  ∧ ¬ ∃ key t,
        quiet Sample.misconfigured Sample.base_path Sample.unsaved
        = (Raise (KeyError key), t).
Proof.
  split_and!; [reflexivity|reflexivity|].
  by intros (key & t & Hrun).
Qed.

(** * Further properties of the script *)

(** ** What [validate] does before and around the linter call *)

Lemma validate_without_scope (w : World) (BASE_PATH : string)
    (env : gmap string string) :
  env !! "TM_SCOPE" = None →
  validate w BASE_PATH env = (Raise (KeyError "TM_SCOPE"), []).
Proof.
  intros Hscope. unfold validate, environ_getitem. by rewrite Hscope.
Qed.

(** Without [TM_SCOPE] the report and the quiet mode both stop with a
    [KeyError] before the linter is run: nothing is printed, no mark is
    touched. *)
Theorem modes_need_scope (w : World) (BASE_PATH : string)
    (env : gmap string string) :
  env !! "TM_SCOPE" = None →
  full_report w BASE_PATH env = (Raise (KeyError "TM_SCOPE"), [])
  ∧ quiet w BASE_PATH env = (Raise (KeyError "TM_SCOPE"), []).
Proof.
  intros Hscope. unfold full_report, quiet.
  by rewrite (validate_without_scope _ _ _ Hscope).
Qed.

Lemma modes_need_scope_sample :
  full_report Sample.linting Sample.base_path Sample.no_scope
  = (Raise (KeyError "TM_SCOPE"), [])
  ∧ quiet Sample.linting Sample.base_path Sample.no_scope
    = (Raise (KeyError "TM_SCOPE"), []).
Proof. apply modes_need_scope. reflexivity. Defined.

(** A start line that [int] rejects stops both modes with a [ValueError]
    for that text, again before the linter is run. *)
Theorem modes_need_numeric_start_line (w : World) (BASE_PATH : string)
    (env : gmap string string) (scope text : string) :
  env !! "TM_SCOPE" = Some scope →
  env !! "TM_INPUT_START_LINE" = Some text →
  py_int w text = None →
  full_report w BASE_PATH env = (Raise (ValueError text), [])
  ∧ quiet w BASE_PATH env = (Raise (ValueError text), []).
Proof.
  intros Hscope Htext Hint.
  assert (validate w BASE_PATH env = (Raise (ValueError text), [])) as Hval.
  { unfold validate, environ_getitem, input_start_line.
    rewrite Hscope. simpl. by rewrite Htext, Hint. }
  unfold full_report, quiet. by rewrite Hval.
Qed.

Lemma modes_need_numeric_start_line_sample :
  full_report Sample.linting Sample.base_path Sample.bad_start_line
  = (Raise (ValueError "first"), [])
  ∧ quiet Sample.linting Sample.base_path Sample.bad_start_line
    = (Raise (ValueError "first"), []).
Proof.
  apply (modes_need_numeric_start_line _ _ _ "source.js"); reflexivity.
Defined.




Section ValidateOutcomes.
Context (w : World) (BASE_PATH : string) (env : gmap string string).
Context (scope : string) (start : Z).
Hypothesis Hscope : env !! "TM_SCOPE" = Some scope.
Hypothesis Hstart : input_start_line w env = ret start.

Lemma validate_raises (e : Exn) :
  validator_run_result w env scope start = RunRaises e →
  (∀ message path, e ≠ ValidateError message path) →
  validate w BASE_PATH env = (Raise e, [validator_run_event env scope start]).
Proof using Hscope Hstart.
  unfold validator_run_result, validator_run_event. intros Hrun Hother.
  unfold validate, environ_getitem. rewrite Hscope. simpl.
  rewrite Hstart. simpl. rewrite Hrun.
  destruct e; try done. by destruct (Hother message path).
Qed.

(** An exception of the linter other than [ValidateError] passes through
    both modes untouched: after the linter call nothing is printed and no
    mark is cleared or set. *)
Theorem modes_propagate_linter_exception (e : Exn) :
  validator_run_result w env scope start = RunRaises e →
  (∀ message path, e ≠ ValidateError message path) →
  full_report w BASE_PATH env
  = (Raise e, [validator_run_event env scope start])
  ∧ quiet w BASE_PATH env
    = (Raise e, [validator_run_event env scope start]).
Proof using Hscope Hstart.
  intros Hrun Hother. unfold full_report, quiet.
  by rewrite (validate_raises _ Hrun Hother).
Qed.

(** When the linter returns its issues, the report mode prints one page,
    [report.html] rendered on the report context, and returns; the context
    carries the issues as the linter gave them, and the editor helper is
    never called. *)
Theorem full_report_success (issues : list Issue) :
  validator_run_result w env scope start = RunIssues issues →
  let context := report_context BASE_PATH env issues in
  full_report w BASE_PATH env
  = (Return tt,
     [validator_run_event env scope start;
      EvPrint (ashes_render w "report.html" context)])
  ∧ context !! "issues" = Some (VIssues issues)
  ∧ context !! "BASE_PATH" = Some (VStr BASE_PATH)
  ∧ count_events is_helper_call (trace (full_report w BASE_PATH env)) = 0.
Proof using Hscope Hstart.
  intros Hrun context.
  assert (full_report w BASE_PATH env
          = (Return tt,
             [validator_run_event env scope start;
              EvPrint (ashes_render w "report.html" context)])) as ->.
  { unfold full_report. by rewrite (validate_returns _ _ _ _ _ Hscope Hstart _ Hrun). }
  split_and!; try done; subst context; unfold report_context;
    destruct (count_issues issues) as [errors warnings];
    destruct (env !! "TM_FILEPATH");
    destruct (errors =? 1), (negb (errors =? 0)),
      (warnings =? 1), (negb (warnings =? 0));
    by simplify_map_eq.
Qed.

End ValidateOutcomes.

Lemma modes_propagate_linter_exception_sample :
  quiet Sample.crashing Sample.base_path Sample.saved
  = (Raise (OtherError "OSError"),
     [EvValidatorRun "eslint" (Some "/project/app.js") false 0 None]).
Proof.
  pose proof (modes_propagate_linter_exception Sample.crashing
                Sample.base_path Sample.saved "source.js" 1 eq_refl eq_refl
                (OtherError "OSError") eq_refl) as Hmodes.
  apply Hmodes. intros message path. discriminate.
Defined.

Lemma full_report_success_sample :
  full_report Sample.linting Sample.base_path Sample.saved
  = (Return tt,
     [EvValidatorRun "eslint" (Some "/project/app.js") false 0 None;
      EvPrint "report.html"]).
Proof.
  pose proof (full_report_success Sample.linting Sample.base_path
                Sample.saved "source.js" 1 eq_refl eq_refl Sample.issues
                eq_refl) as (Hrun & _).
  exact Hrun.
Defined.

(** ** The target of the report *)

Lemma has_slash_append (s t : string) :
  has_slash (s +:+ t) = has_slash s || has_slash t.
Proof.
  induction s as [|c s IH]; [done|].
  rewrite append_cons. simpl. rewrite IH. by rewrite orb_assoc.
Qed.

Lemma basename_from_no_slash (acc p : string) :
  has_slash acc = false → has_slash (basename_from acc p) = false.
Proof.
  revert acc. induction p as [|c p IH]; intros acc Hacc; simpl; [done|].
  destruct (Ascii.eqb c "/") eqn:Hc.
  - by apply IH.
  - apply IH. rewrite has_slash_append, Hacc. simpl. by rewrite Hc.
Qed.

Lemma basename_from_split (acc p : string) :
  ∃ dir, acc +:+ p = dir +:+ basename_from acc p
         ∧ (dir = "" ∨ ∃ parent, dir = parent +:+ "/").
Proof.
  revert acc. induction p as [|c p IH]; intros acc; simpl.
  - exists "". split; [by rewrite append_empty_r|by left].
  - destruct (Ascii.eqb_spec c "/") as [->|Hc].
    + destruct (IH "") as (dir & Hsplit & Hdir).
      change ("" +:+ p) with p in Hsplit.
      exists (acc +:+ "/" +:+ dir). split.
      * rewrite !append_assoc. by rewrite <-Hsplit.
      * right. destruct Hdir as [->|[parent ->]].
        -- exists acc. by rewrite append_empty_r.
        -- exists (acc +:+ "/" +:+ parent). by rewrite !append_assoc.
    + destruct (IH (acc +:+ String c "")) as (dir & Hsplit & Hdir).
      exists dir. split; [|done].
      rewrite <-Hsplit. by rewrite append_assoc.
Qed.

(** For a saved file the report is titled with the file name: what follows
    the last ['/'] of [TM_FILEPATH], with no ['/'] in it, and links to the
    file; for an unsaved buffer it has the placeholder title and a link to
    line 1. *)
Theorem report_context_target (BASE_PATH : string)
    (env : gmap string string) (issues : list Issue) :
  let context := report_context BASE_PATH env issues in
  match env !! "TM_FILEPATH" with
  | Some file_path =>
      ∃ dir name,
        file_path = dir +:+ name
        ∧ (dir = "" ∨ ∃ parent, dir = parent +:+ "/")
        ∧ has_slash name = false
        ∧ context !! "targetFilename" = Some (VStr name)
        ∧ context !! "targetUrl"
          = Some (VStr ("txmt://open?url=file://" +:+ file_path))
  | None =>
      context !! "targetFilename" = Some (VStr "(current unsaved file)")
      ∧ context !! "targetUrl"
        = Some (VStr "txmt://open?line=1&amp;column=0")
  end.
Proof.
  intros context. subst context. unfold report_context.
  destruct (count_issues issues) as [errors warnings].
  destruct (env !! "TM_FILEPATH") as [file_path|].
  - destruct (basename_from_split "" file_path) as (dir & Hsplit & Hdir).
    exists dir, (basename file_path). split_and!; try done.
    + by apply basename_from_no_slash.
    + destruct (errors =? 1), (negb (errors =? 0)),
        (warnings =? 1), (negb (warnings =? 0)); by simplify_map_eq.
    + destruct (errors =? 1), (negb (errors =? 0)),
        (warnings =? 1), (negb (warnings =? 0)); by simplify_map_eq.
  - split;
      destruct (errors =? 1), (negb (errors =? 0)),
        (warnings =? 1), (negb (warnings =? 0)); by simplify_map_eq.
Qed.

(** ** Counting does not depend on the order *)

Lemma num_flagged_permutation (flag : Issue → bool)
    (issues issues' : list Issue) :
  issues ≡ₚ issues' → num_flagged flag issues = num_flagged flag issues'.
Proof.
  unfold num_flagged. induction 1 as [|i l l' _ IH|i j l|l l' l'' _ IH _ IH'];
    simpl.
  - done.
  - destruct (flag i); simpl; by rewrite IH.
  - by destruct (flag i), (flag j).
  - by rewrite IH.
Qed.

(** The tooltip text and the summary entries of the report are the same
    for two issue lists that are a rearrangement of each other. *)
Theorem summaries_ignore_order (BASE_PATH : string)
    (env : gmap string string) (issues issues' : list Issue) :
  issues ≡ₚ issues' →
  quiet_summary issues = quiet_summary issues'
  ∧ ∀ key, key ∈ ["hasErrorsOrWarnings"; "errorCountString";
                  "warningCountString"] →
      report_context BASE_PATH env issues !! key
      = report_context BASE_PATH env issues' !! key.
Proof.
  intros Hperm.
  pose proof (num_flagged_permutation isError _ _ Hperm) as He.
  pose proof (num_flagged_permutation isWarning _ _ Hperm) as Hw.
  split.
  - rewrite !quiet_summary_counts. by rewrite He, Hw.
  - intros key Hkey. repeat (apply elem_of_cons in Hkey as [->|Hkey]).
    + rewrite !report_context_flag. by rewrite He, Hw.
    + rewrite !report_context_error_string. by rewrite He.
    + rewrite !report_context_warning_string. by rewrite Hw.
    + by apply elem_of_nil in Hkey.
Qed.

Lemma summaries_ignore_order_sample :
  quiet_summary [Sample.unused_variable; Sample.missing_semicolon]
  = quiet_summary Sample.issues.
Proof.
  apply (summaries_ignore_order Sample.base_path Sample.saved).
  apply Permutation_swap.
Defined.

(** ** The two modes agree *)

(** The banner flag of the report is set exactly when the tooltip of the
    quiet mode is not empty. *)
Theorem report_flag_iff_tooltip (BASE_PATH : string)
    (env : gmap string string) (issues : list Issue) :
  report_context BASE_PATH env issues !! "hasErrorsOrWarnings"
  = Some (VBool (str_truthy (quiet_summary issues))).
Proof.
  rewrite report_context_flag, quiet_summary_counts. do 2 f_equal.
  destruct (num_flagged isError issues) as [|e],
    (num_flagged isWarning issues) as [|w]; [done| | |];
    unfold spec_tooltip; symmetry;
    repeat apply str_truthy_append; apply spec_count_phrase_truthy.
Qed.

(** The tooltip is made of the count strings that the report shows: those
    present in the report context, errors first, joined by [', '], with the
    hint appended unless there is none. *)
Theorem tooltip_from_report_strings (BASE_PATH : string)
    (env : gmap string string) (issues : list Issue) :
  let context := report_context BASE_PATH env issues in
  quiet_summary issues
  = match context_string context "errorCountString",
          context_string context "warningCountString" with
    | None, None => ""
    | Some errors, None => errors +:+ HINT
    | None, Some warnings => warnings +:+ HINT
    | Some errors, Some warnings => errors +:+ ", " +:+ warnings +:+ HINT
    end.
Proof.
  intros context. subst context. unfold context_string.
  rewrite report_context_error_string, report_context_warning_string.
  rewrite quiet_summary_counts. unfold spec_count_entry.
  by destruct (num_flagged isError issues) as [|e],
    (num_flagged isWarning issues) as [|w].
Qed.

(** Issues flagged neither as errors nor as warnings are not counted: the
    tooltip is empty and the banner flag is off, although each of them
    still gets its gutter mark. *)
Theorem unflagged_issues_not_counted (BASE_PATH : string)
    (env : gmap string string) (issues : list Issue) (mate file_path : string) :
  Forall (λ issue, isError issue = false ∧ isWarning issue = false) issues →
  env !! "TM_MATE" = Some mate →
  env !! "TM_FILEPATH" = Some file_path →
  quiet_summary issues = ""
  ∧ report_context BASE_PATH env issues !! "hasErrorsOrWarnings"
    = Some (VBool false)
  ∧ count_events is_set_mark (trace (update_gutter_marks env issues))
    = length issues.
Proof.
  intros Hnone Hmate Hfile.
  assert (num_flagged isError issues = 0 ∧ num_flagged isWarning issues = 0)
    as [He Hw].
  { unfold num_flagged. induction Hnone as [|i l [Hi Hi'] _ [IH IH']];
      [done|]. simpl. by rewrite Hi, Hi'. }
  split_and!.
  - rewrite quiet_summary_counts. by rewrite He, Hw.
  - rewrite report_context_flag. by rewrite He, Hw.
  - rewrite (update_gutter_marks_run env mate file_path Hmate Hfile).
    unfold count_events, trace. simpl.
    destruct (set_marks_recognised mate file_path issues) as [-> _].
    by rewrite length_map.
Qed.

Lemma unflagged_issues_not_counted_sample :
  quiet_summary Sample.notes = ""
  ∧ report_context Sample.base_path Sample.saved Sample.notes
    !! "hasErrorsOrWarnings" = Some (VBool false)
  ∧ count_events is_set_mark
      (trace (update_gutter_marks Sample.saved Sample.notes)) = 1.
Proof.
  apply (unflagged_issues_not_counted Sample.base_path Sample.saved
           Sample.notes "/usr/local/bin/mate" "/project/app.js");
    [|reflexivity|reflexivity].
  repeat constructor.
Defined.

(** ** The gutter-mark updater without its environment *)

(** When [TM_MATE] or [TM_FILEPATH] is unset the updater raises [KeyError]
    for the first of the two that is missing, [TM_MATE] first, and issues no
    command: the old marks are not even cleared. *)
Theorem update_gutter_marks_needs_environment (env : gmap string string)
    (issues : list Issue) :
  env !! "TM_MATE" = None ∨ env !! "TM_FILEPATH" = None →
  update_gutter_marks env issues
  = (Raise (KeyError match env !! "TM_MATE" with
                     | None => "TM_MATE"
                     | Some _ => "TM_FILEPATH"
                     end),
     []).
Proof.
  intros Hmissing. unfold update_gutter_marks, environ_getitem.
  destruct (env !! "TM_MATE") as [mate|]; [|done].
  destruct Hmissing as [?|Hfile]; [done|]. by rewrite Hfile.
Qed.

Lemma update_gutter_marks_needs_environment_sample :
  update_gutter_marks Sample.no_mate Sample.issues
  = (Raise (KeyError "TM_MATE"), []).
Proof.
  apply (update_gutter_marks_needs_environment Sample.no_mate).
  left. reflexivity.
Defined.

(** ** When the autofix goes wrong *)

Section FixFailures.
Context (w : World) (env : gmap string string) (filename scope : string).
Hypothesis Hfile : env !! "TM_FILEPATH" = Some filename.
Hypothesis Hscope : env !! "TM_SCOPE" = Some scope.
Hypothesis Hplain : startswith scope "source.js" = true.

(** An exception of the linter's fix leaves [fix] as it is, and the marks
    of the file are then not cleared. *)
Theorem fix_propagates_linter_exception (e : Exn) :
  validator_fix w (eslint_command_of env) filename (working_directory env)
  = Some e →
  fix_ w env
  = (Raise e,
     [EvValidatorFix (eslint_command_of env) filename
        (working_directory env)]).
Proof using Hfile Hscope Hplain.
  intros Hfix. unfold fix_, environ_getitem. rewrite Hfile, Hscope. simpl.
  rewrite Hplain. simpl. by rewrite Hfix.
Qed.

(** The helper path is read only after the linter has fixed the file: with
    [TM_MATE] unset the file is fixed all the same, and [fix] then ends
    with a [KeyError], the marks left as they were. *)
Theorem fix_without_helper :
  validator_fix w (eslint_command_of env) filename (working_directory env)
  = None →
  env !! "TM_MATE" = None →
  fix_ w env
  = (Raise (KeyError "TM_MATE"),
     [EvValidatorFix (eslint_command_of env) filename
        (working_directory env)]).
Proof using Hfile Hscope Hplain.
  intros Hfix Hmate. unfold fix_, environ_getitem. rewrite Hfile, Hscope.
  simpl. rewrite Hplain. simpl. by rewrite Hfix, Hmate.
Qed.

End FixFailures.

Lemma fix_propagates_linter_exception_sample :
  fix_ Sample.crashing Sample.saved
  = (Raise (OtherError "OSError"),
     [EvValidatorFix "eslint" "/project/app.js" None]).
Proof.
  apply (fix_propagates_linter_exception Sample.crashing Sample.saved
           "/project/app.js" "source.js"); reflexivity.
Defined.

Lemma fix_without_helper_sample :
  fix_ Sample.linting Sample.no_mate
  = (Raise (KeyError "TM_MATE"),
     [EvValidatorFix "eslint" "/project/app.js" None]).
Proof.
  apply (fix_without_helper Sample.linting Sample.no_mate
           "/project/app.js" "source.js"); reflexivity.
Defined.

(** [fix] hands a file to the linter only if it is the saved file of a
    plain-script buffer, and only the file of [TM_FILEPATH], with the
    configured command and working directory; and it clears marks only
    after the linter's fix has returned. *)
Theorem fix_only_saved_plain_script (w : World) (env : gmap string string) :
  (∀ cmd filename cwd,
     EvValidatorFix cmd filename cwd ∈ trace (fix_ w env) →
     env !! "TM_FILEPATH" = Some filename
     ∧ (∃ scope, env !! "TM_SCOPE" = Some scope
                 ∧ startswith scope "source.js" = true)
     ∧ cmd = eslint_command_of env
     ∧ cwd = working_directory env)
  ∧ (∀ argv,
       EvCall argv ∈ trace (fix_ w env) →
       ∃ mate filename,
         env !! "TM_MATE" = Some mate
         ∧ env !! "TM_FILEPATH" = Some filename
         ∧ argv = [mate; "--clear-mark=warning"; filename]
         ∧ validator_fix w (eslint_command_of env) filename
             (working_directory env) = None).
Proof.
  unfold fix_, environ_getitem.
  destruct (env !! "TM_FILEPATH") as [filename|] eqn:Hfile;
    [|split; intros; unfold trace in *; simpl in *; by decompose_list_elem_of].
  destruct (env !! "TM_SCOPE") as [scope|] eqn:Hscope;
    [|split; intros; unfold trace in *; simpl in *; by decompose_list_elem_of].
  simpl. destruct (startswith scope "source.js") eqn:Hplain;
    [|split; intros; unfold trace in *; simpl in *; by decompose_list_elem_of].
  simpl.
  destruct (validator_fix _ _ _ _) as [e|] eqn:Hfix;
    [|destruct (env !! "TM_MATE") as [mate|] eqn:Hmate];
    unfold trace; simpl; split; intros;
    decompose_list_elem_of; simplify_eq; eauto 10.
Qed.

Lemma fix_clears_marks_trace_sample :
  trace (fix_ Sample.linting Sample.saved)
  = [EvValidatorFix "eslint" "/project/app.js" None;
     EvCall ["/usr/local/bin/mate"; "--clear-mark=warning";
             "/project/app.js"]].
Proof. reflexivity. Qed.

Lemma fix_only_saved_plain_script_sample :
  Sample.saved !! "TM_FILEPATH" = Some "/project/app.js"
  ∧ (∃ scope, Sample.saved !! "TM_SCOPE" = Some scope
              ∧ startswith scope "source.js" = true)
  ∧ "eslint" = eslint_command_of Sample.saved
  ∧ None = working_directory Sample.saved.
Proof.
  apply (fix_only_saved_plain_script Sample.linting Sample.saved).
  rewrite fix_clears_marks_trace_sample. by left.
Defined.

(** ** At most one linter run and one page per invocation *)

Lemma count_events_app (kind : Event → bool) (t t' : list Event) :
  count_events kind (t ++ t') = count_events kind t + count_events kind t'.
Proof. unfold count_events. by rewrite List.filter_app, length_app. Qed.

Lemma trace_bind {A B} (m : M A) (f : A → M B) :
  trace (bind m f)
  = trace m ++ match outcome m with
               | Return a => trace (f a)
               | _ => []
               end.
Proof.
  destruct m as [[a|e|] t]; unfold trace, outcome; simpl.
  - by destruct (f a).
  - by rewrite app_nil_r.
  - by rewrite app_nil_r.
Qed.

Lemma outcome_bind_return {A B} (m : M A) (f : A → M B) (b : B) :
  outcome (bind m f) = Return b →
  ∃ a, outcome m = Return a ∧ outcome (f a) = Return b.
Proof.
  destruct m as [[a|e|] t]; unfold outcome; simpl; [|done..].
  destruct (f a) as [o t'] eqn:Hf. simpl. intros ->. exists a.
  by rewrite Hf.
Qed.

Lemma count_events_calls {A} (kind : Event → bool) (argv_of : A → list string)
    (xs : list A) :
  (∀ argv, kind (EvCall argv) = false) →
  count_events kind (map (λ x, EvCall (argv_of x)) xs) = 0.
Proof.
  intros Hkind. unfold count_events.
  induction xs as [|x xs IH]; [done|]. simpl. by rewrite Hkind.
Qed.

Lemma validate_events (w : World) (BASE_PATH : string)
    (env : gmap string string) :
  let run := validate w BASE_PATH env in
  count_events is_linter_run (trace run) ≤ 1
  ∧ count_events is_helper_call (trace run) = 0
  ∧ count_events is_print (trace run)
    = match outcome run with
      | SysExit => 1
      | _ => 0
      end.
Proof.
  unfold validate, environ_getitem, input_start_line, validate_handler.
  destruct (env !! "TM_SCOPE") as [scope|]; [|by compute; split_and!; lia].
  simpl.
  destruct (env !! "TM_INPUT_START_LINE") as [text|];
    [destruct (py_int w text) as [n|]; [|by compute; split_and!; lia]|];
    simpl;
    destruct (validator_run _ _ _ _ _ _) as [l|[]];
    by compute; split_and!; lia.
Qed.

Lemma update_gutter_marks_needs_environment_trace (env : gmap string string)
    (issues : list Issue) :
  env !! "TM_MATE" = None ∨ env !! "TM_FILEPATH" = None →
  trace (update_gutter_marks env issues) = [].
Proof.
  intros Hmissing. unfold update_gutter_marks, environ_getitem.
  destruct (env !! "TM_MATE") as [mate|]; [|done].
  destruct Hmissing as [?|Hfile]; [done|]. by rewrite Hfile.
Qed.

Lemma update_gutter_marks_events (env : gmap string string)
    (issues : list Issue) :
  count_events is_linter_run (trace (update_gutter_marks env issues)) = 0
  ∧ count_events is_print (trace (update_gutter_marks env issues)) = 0.
Proof.
  destruct (env !! "TM_MATE") as [mate|] eqn:Hmate;
    [destruct (env !! "TM_FILEPATH") as [file_path|] eqn:Hfile|].
  - rewrite (update_gutter_marks_run env mate file_path Hmate Hfile).
    unfold trace. simpl.
    change (?ev :: ?t) with ([ev] ++ t). rewrite !count_events_app.
    by rewrite !count_events_calls.
  - by rewrite update_gutter_marks_needs_environment_trace
      by (right; exact Hfile).
  - by rewrite update_gutter_marks_needs_environment_trace
      by (left; exact Hmate).
Qed.

Lemma full_report_events (w : World) (BASE_PATH : string)
    (env : gmap string string) :
  let t := trace (full_report w BASE_PATH env) in
  count_events is_linter_run t ≤ 1
  ∧ count_events is_print t ≤ 1
  ∧ count_events is_helper_call t = 0.
Proof.
  intros t. subst t. unfold full_report. rewrite trace_bind.
  rewrite !count_events_app.
  destruct (validate_events w BASE_PATH env) as (Hlint & Hcall & Hprint).
  rewrite Hcall, Hprint.
  destruct (outcome (validate w BASE_PATH env)); unfold count_events in *;
    simpl; split_and!; lia.
Qed.

Lemma quiet_events (w : World) (BASE_PATH : string)
    (env : gmap string string) :
  let t := trace (quiet w BASE_PATH env) in
  count_events is_linter_run t ≤ 1 ∧ count_events is_print t ≤ 1.
Proof.
  intros t. subst t. unfold quiet. rewrite trace_bind.
  rewrite !count_events_app.
  destruct (validate_events w BASE_PATH env) as (Hlint & _ & Hprint).
  rewrite Hprint.
  destruct (outcome (validate w BASE_PATH env)) as [issues| |];
    [|unfold count_events in *; simpl; lia..].
  rewrite trace_bind, !count_events_app.
  destruct (update_gutter_marks_events env issues) as [-> ->].
  destruct (outcome (update_gutter_marks env issues));
    unfold count_events in *; simpl; lia.
Qed.

Lemma fix_events (w : World) (env : gmap string string) :
  let t := trace (fix_ w env) in
  count_events is_linter_run t ≤ 1 ∧ count_events is_print t = 0.
Proof.
  unfold fix_, environ_getitem.
  destruct (env !! "TM_FILEPATH") as [filename|]; [|by compute; lia].
  destruct (env !! "TM_SCOPE") as [scope|]; [|by compute; lia].
  simpl. destruct (startswith scope "source.js"); [|by compute; lia].
  simpl. destruct (validator_fix _ _ _ _) as [e|]; [by compute; lia|].
  destruct (env !! "TM_MATE") as [mate|]; by compute; lia.
Qed.

(** Whatever the arguments, the environment and the collaborators do, one
    invocation of the script runs the linter at most once and prints at
    most one text. *)
Theorem main_one_linter_run_one_print (w : World)
    (env : gmap string string) (argv : list string) :
  count_events is_linter_run (trace (main w env argv)) ≤ 1
  ∧ count_events is_print (trace (main w env argv)) ≤ 1.
Proof.
  unfold main. rewrite trace_bind.
  unfold module_BASE_PATH, environ_getitem.
  destruct (env !! "TM_BUNDLE_SUPPORT") as [support|];
    [|compute; lia].
  cbn [bind ret outcome trace fst snd app]. unfold main_block.
  destruct (py_in "--html" argv); [|destruct (py_in "--fix" argv)].
  - destruct (full_report_events w ("tm-file://" +:+ support) env)
      as (? & ? & _). done.
  - destruct (fix_events w env) as [? Hprint]. rewrite Hprint. lia.
  - apply quiet_events.
Qed.

(** Each mode keeps to its own channel: the report mode never calls the
    editor helper, so it leaves the gutter marks alone, and the autofix
    prints nothing. *)
Theorem modes_keep_to_their_channel (w : World) (BASE_PATH : string)
    (env : gmap string string) :
  count_events is_helper_call (trace (full_report w BASE_PATH env)) = 0
  ∧ count_events is_print (trace (fix_ w env)) = 0.
Proof.
  split.
  - apply full_report_events.
  - apply fix_events.
Qed.

(** ** The module level *)

Lemma main_without_support_sample :
  main Sample.linting Sample.no_support ["main.py"; "--fix"]
  = (Raise (KeyError "TM_BUNDLE_SUPPORT"), []).
Proof. apply main_without_support. reflexivity. Defined.

(** With [TM_BUNDLE_SUPPORT] set, a quiet run that goes well ends with the
    tooltip as its last event, after the marks. *)
Lemma main_quiet_sample :
  trace (main Sample.linting Sample.saved ["main.py"])
  = [EvValidatorRun "eslint" (Some "/project/app.js") false 0 None;
     EvCall ["/usr/local/bin/mate"; "--clear-mark=warning";
             "/project/app.js"];
     EvCall ["/usr/local/bin/mate";
             "--set-mark=warning:[ESLint] Missing semicolon";
             "--line=3:5"; "/project/app.js"];
     EvCall ["/usr/local/bin/mate";
             "--set-mark=warning:[ESLint] 'x' is defined but never used (no-unused-vars)";
             "--line=7:1"; "/project/app.js"];
     EvPrint ("1 error, 1 warning" +:+ HINT)].
Proof. reflexivity. Qed.

(** The module level reads [TM_BUNDLE_SUPPORT] before any mode is chosen:
    without it every invocation, the autofix included, ends with a
    [KeyError] and has done nothing; with it the chosen mode runs with
    [BASE_PATH] set to ['tm-file://'] followed by its value. *)
Theorem main_needs_bundle_support (w : World) (env : gmap string string)
    (argv : list string) :
  match env !! "TM_BUNDLE_SUPPORT" with
  | None => main w env argv = (Raise (KeyError "TM_BUNDLE_SUPPORT"), [])
  | Some support =>
      main w env argv = main_block w ("tm-file://" +:+ support) env argv
  end.
Proof.
  unfold main, module_BASE_PATH, environ_getitem.
  destruct (env !! "TM_BUNDLE_SUPPORT") as [support|]; [|done].
  simpl. by destruct (main_block _ _ _ _).
Qed.

(** ** A quiet run that goes well *)

(** When the linter returns its issues and the helper and the file path
    are known, the quiet mode runs the linter, clears the marks, sets one
    mark per issue in the linter's order, and prints the tooltip last; it
    prints nothing else and returns. *)
Theorem quiet_success (w : World) (BASE_PATH : string)
    (env : gmap string string) (scope mate file_path : string) (start : Z)
    (issues : list Issue) :
  env !! "TM_SCOPE" = Some scope →
  input_start_line w env = ret start →
  validator_run_result w env scope start = RunIssues issues →
  env !! "TM_MATE" = Some mate →
  env !! "TM_FILEPATH" = Some file_path →
  quiet w BASE_PATH env
  = (Return tt,
     [validator_run_event env scope start;
      EvCall [mate; "--clear-mark=warning"; file_path]]
     ++ map (λ issue,
               EvCall [mate;
                       "--set-mark=warning:[ESLint] " +:+ spec_label issue;
                       "--line=" +:+ spec_position issue;
                       file_path]) issues
     ++ [EvPrint (quiet_summary issues)])
  ∧ count_events is_print (trace (quiet w BASE_PATH env)) = 1
  ∧ last (trace (quiet w BASE_PATH env))
    = Some (EvPrint (quiet_summary issues)).
Proof.
  intros Hscope Hstart Hrun Hmate Hfile.
  assert (quiet w BASE_PATH env
          = (Return tt,
             [validator_run_event env scope start;
              EvCall [mate; "--clear-mark=warning"; file_path]]
             ++ map (λ issue,
                       EvCall [mate;
                               "--set-mark=warning:[ESLint] "
                               +:+ spec_label issue;
                               "--line=" +:+ spec_position issue;
                               file_path]) issues
             ++ [EvPrint (quiet_summary issues)])) as ->.
  { unfold quiet.
    rewrite (validate_returns _ _ _ _ _ Hscope Hstart _ Hrun).
    rewrite bind_return.
    rewrite (update_gutter_marks_run env mate file_path Hmate Hfile).
    reflexivity. }
  split_and!; [done| |].
  - unfold trace. cbn [snd]. rewrite !count_events_app.
    rewrite count_events_calls by done. reflexivity.
  - unfold trace. cbn [snd]. rewrite !app_assoc. by rewrite last_snoc.
Qed.

Lemma quiet_success_sample :
  last (trace (quiet Sample.linting Sample.base_path Sample.saved))
  = Some (EvPrint ("1 error, 1 warning" +:+ HINT)).
Proof.
  pose proof (quiet_success Sample.linting Sample.base_path Sample.saved
                "source.js" "/usr/local/bin/mate" "/project/app.js" 1
                Sample.issues eq_refl eq_refl eq_refl eq_refl eq_refl)
    as (_ & _ & Hlast).
  exact Hlast.
Defined.
